(** * Two-stage PCA integration of four omics layers

    A shallow embedding of [multiomics_integrator.py] and the properties
    of its [fit_transform] pipeline.

    The module is a thin composition over scikit-learn's [PCA] and a few
    numpy routines.  Those libraries are not part of the repository; they
    enter the development as an interface ([Backend]) whose documented
    contract is stated separately ([BackendSpec]).  Everything the module
    itself does (the row-count check, the order of the five fits, the
    concatenation, the state it leaves behind) is modelled concretely. *)

From Stdlib Require Import String Ascii DecimalString.
From Stdlib Require Import ZArith List Bool Lia Floats Uint63.
Import ListNotations.

Local Open Scope list_scope.

(** ** Exceptions

    Both the sanity check of [fit_transform] and the validation inside
    scikit-learn raise Python's [ValueError]; they differ by message. *)

Inductive exn : Type :=
| ValueError (msg : string).

(** The error of the row-count check (line 107). *)
Definition ShapeMismatch : exn :=
  ValueError
    "All input datasets must have the same number of samples (rows)."%string.

(** ** Two-dimensional float64 arrays *)

Record ndarray : Type := mk_ndarray {
  shape : nat * nat;            (* (rows, columns) *)
  data : list (list float)      (* one list per row *)
}.

Definition isfinite (x : float) : bool :=
  negb (PrimFloat.is_nan x || PrimFloat.is_infinity x).

Definition well_formed (a : ndarray) : bool :=
  (List.length (data a) =? fst (shape a))%nat
  && forallb (fun r => (List.length r =? snd (shape a))%nat) (data a).

Definition all_finite (a : ndarray) : bool :=
  forallb (forallb isfinite) (data a).

(** What scikit-learn's input validation accepts as content: a proper
    rectangular array without NaN or infinity. *)
Definition valid (a : ndarray) : bool := well_formed a && all_finite a.

(** [np.hstack] on 2-D arrays: concatenation along the column axis; the
    arrays must agree on the row count. *)
Fixpoint hstack_rows (n : nat) (tup : list ndarray) : list (list float) :=
  match tup with
  | [] => repeat [] n
  | a :: rest =>
      map (fun p => fst p ++ snd p) (combine (data a) (hstack_rows n rest))
  end.

Definition hstack (tup : list ndarray) : exn + ndarray :=
  match tup with
  | [] => inl (ValueError "need at least one array to concatenate"%string)
  | a :: rest =>
      if forallb (fun b => (fst (shape b) =? fst (shape a))%nat) rest
      then inr {| shape := (fst (shape a),
                            list_sum (map (fun b => snd (shape b)) tup));
                  data := hstack_rows (fst (shape a)) tup |}
      else inl (ValueError
        "all the input array dimensions except for the concatenation axis must match exactly"%string)
  end.

(** ** The numerical libraries

    [pca_fit_transform k rs copy g X] is one run of
    [PCA(n_components=k, random_state=rs, copy=copy).fit_transform(X)]
    while numpy's global generator is in state [g].  It yields the state
    of the global generator afterwards, the contents of the caller's
    array [X] afterwards (scikit-learn may overwrite it when [copy] is
    false), and either an exception or the fitted parameters together
    with the projected data.

    [default_rng] and [standard_normal] are numpy's
    [np.random.default_rng] and [Generator.standard_normal]; an unseeded
    generator draws its seed from the operating system ([Entropy]). *)

Class Backend : Type := {
  RandomState : Type;
  Fitted : Type;
  pca_fit_transform :
    Z -> option Z -> bool -> RandomState -> ndarray ->
    RandomState * ndarray * (exn + Fitted * ndarray);
  n_components_msg : Z -> nat * nat -> string;
  Generator : Type;
  Entropy : Type;
  default_rng : option Z -> Entropy -> Generator;
  standard_normal : Generator -> Z * Z -> Generator * (exn + ndarray)
}.

(** The error scikit-learn raises when [n_components] does not fit the
    shape of the data. *)
Definition InvalidShape `{Backend} (k : Z) (s : nat * nat) : exn :=
  ValueError (n_components_msg k s).

(** ** The contract of the libraries

    What the documentation of scikit-learn and numpy promises and the
    integrator relies on.
    - [pca_shape]: a successful [fit_transform] with an integer
      [n_components] returns finite data with one row per sample and
      [n_components] columns.
    - [pca_accepts]: finite rectangular data with at least [n_components]
      rows and columns is accepted.
    - [pca_rejects]: [n_components] above [min(n_samples, n_features)] is
      refused with a [ValueError].
    - [pca_seeded]: with an integer [random_state] the estimator seeds a
      generator of its own; numpy's global generator is neither read nor
      advanced.
    - [pca_copy]: with [copy=True] the data passed in is not overwritten.
    - [standard_normal_shape]: the requested shape is the shape drawn. *)

Class BackendSpec (B : Backend) : Prop := {
  pca_shape : forall k rs c g X g' X' f Y,
    pca_fit_transform k rs c g X = (g', X', inr (f, Y)) ->
    fst (shape Y) = fst (shape X) /\ Z.of_nat (snd (shape Y)) = k
    /\ valid Y = true;
  pca_accepts : forall k rs c g X,
    valid X = true ->
    (1 <= k <= Z.of_nat (Nat.min (fst (shape X)) (snd (shape X))))%Z ->
    exists g' X' f Y, pca_fit_transform k rs c g X = (g', X', inr (f, Y));
  pca_rejects : forall k rs c g X,
    valid X = true ->
    (Z.of_nat (Nat.min (fst (shape X)) (snd (shape X))) < k)%Z ->
    exists g' X',
      pca_fit_transform k rs c g X = (g', X', inl (InvalidShape k (shape X)));
  pca_seeded : forall k seed c X,
    exists X' r, forall g,
      pca_fit_transform k (Some seed) c g X = (g, X', r);
  pca_copy : forall k rs g X g' X' r,
    pca_fit_transform k rs true g X = (g', X', r) -> X' = X;
  standard_normal_shape : forall gen n d,
    (0 <= n)%Z -> (0 <= d)%Z ->
    exists gen' X,
      standard_normal gen (n, d) = (gen', inr X)
      /\ valid X = true /\ shape X = (Z.to_nat n, Z.to_nat d)
}.

(** ** [sklearn.decomposition.PCA] objects *)

Module PCA.
Section WithBackend.
Context `{B : Backend}.

Record t : Type := mk {
  n_components : Z;
  random_state : option Z;
  copy : bool;
  fitted : option Fitted
}.

(** [PCA(n_components=..., random_state=...)]; [copy] keeps its default. *)
Definition __init__ (n_components : Z) (random_state : option Z) : t :=
  {| n_components := n_components; random_state := random_state;
     copy := true; fitted := None |}.

Definition set_fitted (self : t) (f : Fitted) : t :=
  {| n_components := n_components self; random_state := random_state self;
     copy := copy self; fitted := Some f |}.

(** The method [fit_transform]: the estimator is refitted from its
    parameters and keeps the new fit; a failed call keeps what it had. *)
Definition fit_transform (self : t) (g : RandomState) (X : ndarray)
  : t * RandomState * ndarray * (exn + ndarray) :=
  let '(g', X', r) :=
    pca_fit_transform (n_components self) (random_state self) (copy self) g X in
  match r with
  | inl e => (self, g', X', inl e)
  | inr (f, Y) => (set_fitted self f, g', X', inr Y)
  end.
End WithBackend.
End PCA.

(** ** The integrator *)

Section Integrator.
Context `{B : Backend}.

Record MultiOmicsIntegrator : Type := mk_integrator {
  n_components : Z;
  random_state : option Z;
  pca_metabolomics : PCA.t;
  pca_bulk_rna : PCA.t;
  pca_spatial : PCA.t;
  pca_sc_rna : PCA.t;
  pca_joint : PCA.t
}.

(** The dataclass constructor: the two fields are stored, then
    [__post_init__] builds the five reducers from them. *)
Definition __post_init__ (n_components : Z) (random_state : option Z)
  : MultiOmicsIntegrator :=
  {| n_components := n_components;
     random_state := random_state;
     pca_metabolomics := PCA.__init__ n_components random_state;
     pca_bulk_rna := PCA.__init__ n_components random_state;
     pca_spatial := PCA.__init__ n_components random_state;
     pca_sc_rna := PCA.__init__ n_components random_state;
     pca_joint := PCA.__init__ n_components random_state |}.

(** Assignments to the reducer attributes. *)
Definition set_pca_metabolomics (self : MultiOmicsIntegrator) (p : PCA.t) :=
  mk_integrator (n_components self) (random_state self)
    p (pca_bulk_rna self) (pca_spatial self) (pca_sc_rna self)
    (pca_joint self).
Definition set_pca_bulk_rna (self : MultiOmicsIntegrator) (p : PCA.t) :=
  mk_integrator (n_components self) (random_state self)
    (pca_metabolomics self) p (pca_spatial self) (pca_sc_rna self)
    (pca_joint self).
Definition set_pca_spatial (self : MultiOmicsIntegrator) (p : PCA.t) :=
  mk_integrator (n_components self) (random_state self)
    (pca_metabolomics self) (pca_bulk_rna self) p (pca_sc_rna self)
    (pca_joint self).
Definition set_pca_sc_rna (self : MultiOmicsIntegrator) (p : PCA.t) :=
  mk_integrator (n_components self) (random_state self)
    (pca_metabolomics self) (pca_bulk_rna self) (pca_spatial self) p
    (pca_joint self).
Definition set_pca_joint (self : MultiOmicsIntegrator) (p : PCA.t) :=
  mk_integrator (n_components self) (random_state self)
    (pca_metabolomics self) (pca_bulk_rna self) (pca_spatial self)
    (pca_sc_rna self) p.

(** The local variables of [fit_transform] that hold arrays, as they
    stand when the call ends ([None]: not assigned). *)
Record locals : Type := Locals {
  latent_metabolomics : option ndarray;
  latent_bulk : option ndarray;
  latent_spatial : option ndarray;
  latent_sc : option ndarray;
  concatenated : option ndarray
}.

(** Everything a call of [fit_transform] leaves behind: the integrator
    object, numpy's global generator, the four argument arrays, the
    locals, and the value returned or the exception raised. *)
Record outcome : Type := Outcome {
  self_after : MultiOmicsIntegrator;
  random_after : RandomState;
  inputs_after : ndarray * ndarray * ndarray * ndarray;
  frame : locals;
  returned : exn + ndarray
}.

Definition fit_transform (self : MultiOmicsIntegrator) (g : RandomState)
    (metabolomics bulk_rna spatial_trans sc_rna : ndarray) : outcome :=
  let n_samples := fst (shape metabolomics) in
  (* sanity checks *)
  if negb ((fst (shape bulk_rna) =? n_samples)%nat
           && (fst (shape spatial_trans) =? n_samples)%nat
           && (fst (shape sc_rna) =? n_samples)%nat)
  then Outcome self g (metabolomics, bulk_rna, spatial_trans, sc_rna)
         (Locals None None None None None) (inl ShapeMismatch)
  else
  (* First level PCA per view *)
  let '(p, g, metabolomics, r) :=
    PCA.fit_transform (pca_metabolomics self) g metabolomics in
  let self := set_pca_metabolomics self p in
  match r with
  | inl e =>
      Outcome self g (metabolomics, bulk_rna, spatial_trans, sc_rna)
        (Locals None None None None None) (inl e)
  | inr latent_metabolomics =>
  let '(p, g, bulk_rna, r) :=
    PCA.fit_transform (pca_bulk_rna self) g bulk_rna in
  let self := set_pca_bulk_rna self p in
  match r with
  | inl e =>
      Outcome self g (metabolomics, bulk_rna, spatial_trans, sc_rna)
        (Locals (Some latent_metabolomics) None None None None) (inl e)
  | inr latent_bulk =>
  let '(p, g, spatial_trans, r) :=
    PCA.fit_transform (pca_spatial self) g spatial_trans in
  let self := set_pca_spatial self p in
  match r with
  | inl e =>
      Outcome self g (metabolomics, bulk_rna, spatial_trans, sc_rna)
        (Locals (Some latent_metabolomics) (Some latent_bulk) None None None)
        (inl e)
  | inr latent_spatial =>
  let '(p, g, sc_rna, r) :=
    PCA.fit_transform (pca_sc_rna self) g sc_rna in
  let self := set_pca_sc_rna self p in
  match r with
  | inl e =>
      Outcome self g (metabolomics, bulk_rna, spatial_trans, sc_rna)
        (Locals (Some latent_metabolomics) (Some latent_bulk)
           (Some latent_spatial) None None)
        (inl e)
  | inr latent_sc =>
  (* Concatenate latent spaces (early integration) *)
  match hstack [latent_metabolomics; latent_bulk;
                latent_spatial; latent_sc] with
  | inl e =>
      Outcome self g (metabolomics, bulk_rna, spatial_trans, sc_rna)
        (Locals (Some latent_metabolomics) (Some latent_bulk)
           (Some latent_spatial) (Some latent_sc) None)
        (inl e)
  | inr concatenated =>
  (* Final PCA to learn joint representation (intermediate integration) *)
  let '(p, g, concatenated', r) :=
    PCA.fit_transform (pca_joint self) g concatenated in
  let self := set_pca_joint self p in
  Outcome self g (metabolomics, bulk_rna, spatial_trans, sc_rna)
    (Locals (Some latent_metabolomics) (Some latent_bulk)
       (Some latent_spatial) (Some latent_sc) (Some concatenated'))
    r
  end end end end end.

(** [demo]: synthetic layers from a fresh numpy generator, then one
    [fit_transform].  [e] is the entropy an unseeded generator would
    draw; [g] the state of numpy's global generator. *)
Definition demo (n_samples : Z) (random_state : option Z)
    (e : Entropy) (g : RandomState)
  : RandomState * (exn + ndarray * MultiOmicsIntegrator) :=
  let rng := default_rng random_state e in
  (* Simulate synthetic data with different feature sizes *)
  match standard_normal rng (n_samples, 50%Z) with
  | (_, inl err) => (g, inl err)
  | (rng, inr metabolomics) =>
  match standard_normal rng (n_samples, 1000%Z) with
  | (_, inl err) => (g, inl err)
  | (rng, inr bulk_rna) =>
  match standard_normal rng (n_samples, 200%Z) with
  | (_, inl err) => (g, inl err)
  | (rng, inr spatial_trans) =>
  match standard_normal rng (n_samples, 500%Z) with
  | (_, inl err) => (g, inl err)
  | (rng, inr sc_rna) =>
  let integrator := __post_init__ 10%Z random_state in
  let o := fit_transform integrator g
             metabolomics bulk_rna spatial_trans sc_rna in
  match returned o with
  | inl err => (random_after o, inl err)
  | inr integrated_latent =>
      (random_after o, inr (integrated_latent, self_after o))
  end
  end end end end.

(** What [print] shows for a shape: Python's rendering of a pair of
    integers. *)
Definition str_shape (s : nat * nat) : string :=
  ("(" ++ NilZero.string_of_uint (Nat.to_uint (fst s)) ++ ", "
   ++ NilZero.string_of_uint (Nat.to_uint (snd s)) ++ ")")%string.

(** The script ([if __name__ == "__main__"]): one [demo] on 50 samples
    with seed 42, then one [print] of the label and the shape, separated
    by a space and ended by a newline.  The value is what reaches the
    standard output, or the exception that ends the script. *)
Definition main (e : Entropy) (g : RandomState)
  : RandomState * (exn + string) :=
  match demo 50%Z (Some 42%Z) e g with
  | (g, inl err) => (g, inl err)
  | (g, inr (latent, integrator)) =>
      (g, inr ("Integrated latent representation shape:" ++ " "
               ++ str_shape (shape latent)
               ++ String (ascii_of_nat 10) EmptyString)%string)
  end.
End Integrator.


(** ** Vocabulary for the statements *)

Section Vocabulary.
Context `{B : Backend}.

(** A reducer that carries the integrator's configuration, as built by
    [__post_init__]. *)
Definition reducer_of (self : MultiOmicsIntegrator) (p : PCA.t) : Prop :=
  PCA.n_components p = n_components self
  /\ PCA.random_state p = random_state self
  /\ PCA.copy p = true.

Definition configured (self : MultiOmicsIntegrator) : Prop :=
  reducer_of self (pca_metabolomics self)
  /\ reducer_of self (pca_bulk_rna self)
  /\ reducer_of self (pca_spatial self)
  /\ reducer_of self (pca_sc_rna self)
  /\ reducer_of self (pca_joint self).

(** The four row counts agree (the condition of line 106). *)
Definition same_rows (metabolomics bulk_rna spatial_trans sc_rna : ndarray)
  : Prop :=
  fst (shape bulk_rna) = fst (shape metabolomics)
  /\ fst (shape spatial_trans) = fst (shape metabolomics)
  /\ fst (shape sc_rna) = fst (shape metabolomics).

(** The run that reaches [return integrated_latent]: the five fits in
    program order, each on the generator state its predecessor left. *)
Inductive completes (self : MultiOmicsIntegrator) (g : RandomState)
    (metabolomics bulk_rna spatial_trans sc_rna : ndarray)
  : outcome -> Prop :=
| Completes p1 g1 m1 lm p2 g2 b1 lb p3 g3 s1 ls p4 g4 c1 lc C p5 g5 C1 Y :
    same_rows metabolomics bulk_rna spatial_trans sc_rna ->
    PCA.fit_transform (pca_metabolomics self) g metabolomics
      = (p1, g1, m1, inr lm) ->
    PCA.fit_transform (pca_bulk_rna self) g1 bulk_rna
      = (p2, g2, b1, inr lb) ->
    PCA.fit_transform (pca_spatial self) g2 spatial_trans
      = (p3, g3, s1, inr ls) ->
    PCA.fit_transform (pca_sc_rna self) g3 sc_rna
      = (p4, g4, c1, inr lc) ->
    hstack [lm; lb; ls; lc] = inr C ->
    PCA.fit_transform (pca_joint self) g4 C = (p5, g5, C1, inr Y) ->
    completes self g metabolomics bulk_rna spatial_trans sc_rna
      (Outcome
         (mk_integrator (n_components self) (random_state self)
            p1 p2 p3 p4 p5)
         g5 (m1, b1, s1, c1)
         (Locals (Some lm) (Some lb) (Some ls) (Some lc) (Some C1))
         (inr Y)).

(** A layer fit for an integrator with [k] components on [n] samples:
    finite rectangular data with [n] rows and at least [k] columns. *)
Definition layer (k : Z) (n : nat) (X : ndarray) : Prop :=
  valid X = true /\ fst (shape X) = n /\ (k <= Z.of_nat (snd (shape X)))%Z.





(** [L] is what a reducer with the integrator's configuration returns
    for the data [X]. *)
Definition latent_of (self : MultiOmicsIntegrator) (X L : ndarray) : Prop :=
  exists g g' X' f,
    pca_fit_transform (n_components self) (random_state self) true g X
    = (g', X', inr (f, L)).

End Vocabulary.

(** ** A reference backend

    A small executable stand-in for the two libraries.  It is not a
    principal component analysis; it keeps what the pipeline can observe
    of scikit-learn's [PCA] with its default [svd_solver='auto']: the
    input validation, [n_components] columns per sample, the choice of
    the randomised solver on large data, the private generator of a
    seeded estimator, the shared global generator of an unseeded one
    (advanced by the number of deviates the randomised solver draws),
    and the overwriting of the data when [copy] is false.  It shows the
    contract [BackendSpec] to be satisfiable and lets the pipeline be
    evaluated. *)

Module Reference.

Definition message (k : Z) (s : nat * nat) : string :=
  if ((fst s =? 0)%nat || (snd s =? 0)%nat)%bool
  then "Found array with 0 sample(s) or 0 feature(s) while a minimum of 1 is required by PCA."%string
  else "n_components must be between 0 and min(n_samples, n_features) with svd_solver='full'"%string.

(** Whether [svd_solver='auto'] settles on the randomised solver: the
    data is neither tall and narrow (solved through the covariance
    matrix) nor small (full decomposition), and fewer than 80% of the
    possible components are asked for. *)
Definition randomized (k : Z) (n d : nat) : bool :=
  negb ((d <=? 1000)%nat && (10 * d <=? n)%nat)
  && negb (Nat.max n d <=? 500)%nat
  && (1 <=? k)%Z
  && (5 * k <? 4 * Z.of_nat (Nat.min n d))%Z.

(** The deviates the randomised solver draws: a matrix of
    [n_components + n_oversamples] columns (10 oversamples) with one row
    per feature, or per sample when the data is wider than long. *)
Definition draws (k : Z) (n d : nat) : Z :=
  (Z.of_nat (if (n <? d)%nat then n else d) * (k + 10))%Z.

(** [k] consecutive entries of a row, from position [off]. *)
Definition window (k off : nat) (row : list float) : list float :=
  firstn k (skipn off row).

Definition zeroed (X : ndarray) : ndarray :=
  {| shape := shape X; data := map (map (fun _ => 0%float)) (data X) |}.

Definition pca (k : Z) (rs : option Z) (copy : bool) (g : Z) (X : ndarray)
  : Z * ndarray * (exn + (nat * nat) * ndarray) :=
  let n := fst (shape X) in
  let d := snd (shape X) in
  if negb (valid X)
  then (g, X, inl (ValueError "Input X contains NaN or infinity."%string))
  else if ((k <? 0)%Z || (Z.of_nat (Nat.min n d) <? k)%Z
           || (n =? 0)%nat || (d =? 0)%nat)%bool
  then (g, X, inl (ValueError (message k (shape X))))
  else
    let rnd := randomized k n d in
    let seed := match rs with Some s => s | None => g end in
    let g' := match rs with
              | Some _ => g
              | None => if rnd then (g + draws k n d)%Z else g
              end in
    let off := if rnd then Z.to_nat (seed mod (Z.of_nat d - k + 1))
               else 0%nat in
    let Y := {| shape := (n, Z.to_nat k);
                data := map (window (Z.to_nat k) off) (data X) |} in
    (g', if copy then X else zeroed X, inr ((off, d), Y)).

Definition default_rng (seed : option Z) (e : Z) : Z :=
  match seed with Some s => s | None => e end.

Definition standard_normal (gen : Z) (shp : Z * Z) : Z * (exn + ndarray) :=
  let '(n, d) := shp in
  if ((n <? 0)%Z || (d <? 0)%Z)%bool
  then (gen, inl (ValueError "negative dimensions are not allowed"%string))
  else
    let x := if Z.even gen then 0.5%float else (-0.25)%float in
    ((gen + 1)%Z,
     inr {| shape := (Z.to_nat n, Z.to_nat d);
            data := repeat (repeat x (Z.to_nat d)) (Z.to_nat n) |}).

Definition backend : Backend :=
  Build_Backend Z (nat * nat)%type pca message Z Z default_rng standard_normal.

(** Sample data. *)
Definition zeros (n d : nat) : ndarray :=
  {| shape := (n, d); data := repeat (repeat 0%float d) n |}.

Definition two_by_two : ndarray :=
  {| shape := (2, 2)%nat;
     data := [[1%float; 2%float]; [3%float; 4%float]] |}.

Definition two_by_three : ndarray :=
  {| shape := (2, 3)%nat;
     data := [[1%float; 2%float; 3%float]; [4%float; 5%float; 6%float]] |}.

(** [n] rows, each counting 0, 1, ..., [d - 1]. *)
Definition ramp (n d : nat) : ndarray :=
  {| shape := (n, d);
     data := repeat
               (map (fun j => PrimFloat.of_uint63 (Uint63.of_Z (Z.of_nat j)))
                  (seq 0 d))
               n |}.

End Reference.

(** ** Facts about arrays and [hstack] *)

Section Arrays.

Lemma valid_well_formed (a : ndarray) :
  valid a = true ->
  List.length (data a) = fst (shape a)
  /\ Forall (fun r => List.length r = snd (shape a)) (data a)
  /\ Forall (fun r => forallb isfinite r = true) (data a).
Proof.
  unfold valid, well_formed, all_finite. intros Hv.
  apply andb_prop in Hv. destruct Hv as [Hw Hf].
  apply andb_prop in Hw. destruct Hw as [Hl Hr].
  apply Nat.eqb_eq in Hl.
  rewrite forallb_forall in Hr. rewrite forallb_forall in Hf.
  repeat split; trivial.
  - apply Forall_forall. intros r Hin. apply Nat.eqb_eq. now apply Hr.
  - apply Forall_forall. intros r Hin. now apply Hf.
Qed.

Lemma valid_intro (a : ndarray) :
  List.length (data a) = fst (shape a) ->
  Forall (fun r => List.length r = snd (shape a)) (data a) ->
  Forall (fun r => forallb isfinite r = true) (data a) ->
  valid a = true.
Proof.
  intros Hl Hr Hf. unfold valid, well_formed, all_finite.
  rewrite Hl, Nat.eqb_refl. cbn [andb].
  apply andb_true_intro. split; apply forallb_forall; intros r Hin.
  - apply Nat.eqb_eq. rewrite Forall_forall in Hr. now apply Hr.
  - rewrite Forall_forall in Hf. now apply Hf.
Qed.

(** Row [i] of the stacked data is the concatenation, in list order, of
    row [i] of every array. *)
Lemma hstack_rows_nth (n : nat) (tup : list ndarray) :
  Forall (fun a => List.length (data a) = n) tup ->
  List.length (hstack_rows n tup) = n
  /\ forall i, (i < n)%nat ->
       nth i (hstack_rows n tup) [] =
       concat (map (fun a => nth i (data a) []) tup).
Proof.
  induction 1 as [|a rest Ha Hrest [IHl IHn]]; cbn [hstack_rows map concat].
  - split; [apply repeat_length|].
    intros i Hi. apply nth_repeat_lt. exact Hi.
  - split.
    + rewrite length_map, length_combine, Ha, IHl. apply Nat.min_id.
    + intros i Hi.
      rewrite <- (IHn i Hi).
      set (f := fun p : list float * list float => fst p ++ snd p).
      change (@nil float) with (f ([], [])) at 1.
      rewrite map_nth, combine_nth by congruence. reflexivity.
Qed.

Lemma valid_row (a : ndarray) (i : nat) :
  valid a = true -> (i < fst (shape a))%nat ->
  List.length (nth i (data a) []) = snd (shape a)
  /\ forallb isfinite (nth i (data a) []) = true.
Proof.
  intros Hv Hi. destruct (valid_well_formed a Hv) as (Hl & Hr & Hf).
  rewrite <- Hl in Hi. split.
  - now apply (proj1 (Forall_nth _ (data a)) Hr).
  - now apply (proj1 (Forall_nth _ (data a)) Hf).
Qed.

(** Stacking four valid arrays of [n] rows succeeds; the widths add up
    and every row is the four rows side by side, first array first. *)
Lemma hstack_four (a b c d : ndarray) (n : nat) :
  valid a = true -> valid b = true -> valid c = true -> valid d = true ->
  fst (shape a) = n -> fst (shape b) = n ->
  fst (shape c) = n -> fst (shape d) = n ->
  exists C,
    hstack [a; b; c; d] = inr C
    /\ shape C = (n, snd (shape a) + snd (shape b)
                     + snd (shape c) + snd (shape d))%nat
    /\ valid C = true
    /\ forall i, (i < n)%nat ->
         nth i (data C) [] =
         nth i (data a) [] ++ nth i (data b) []
         ++ nth i (data c) [] ++ nth i (data d) [].
Proof.
  intros Va Vb Vc Vd Ha Hb Hc Hd.
  assert (Hlen : Forall (fun x => List.length (data x) = n) [a; b; c; d]).
  { repeat constructor.
    - rewrite <- Ha. apply (valid_well_formed a Va).
    - rewrite <- Hb. apply (valid_well_formed b Vb).
    - rewrite <- Hc. apply (valid_well_formed c Vc).
    - rewrite <- Hd. apply (valid_well_formed d Vd). }
  destruct (hstack_rows_nth n _ Hlen) as [Hl Hn].
  assert (Hrow : forall i, (i < n)%nat ->
            nth i (hstack_rows n [a; b; c; d]) [] =
            nth i (data a) [] ++ nth i (data b) []
            ++ nth i (data c) [] ++ nth i (data d) []).
  { intros i Hi. rewrite (Hn i Hi). cbn [map concat].
    now rewrite app_nil_r. }
  unfold hstack. cbn [forallb].
  rewrite Ha, Hb, Hc, Hd, Nat.eqb_refl. cbn [andb].
  eexists. split; [reflexivity|].
  unfold list_sum; cbn [shape data map fold_right].
  split; [f_equal; lia|]. split; [|exact Hrow].
  apply valid_intro; cbn [shape data fst snd].
  - exact Hl.
  - apply Forall_nth. intros i dflt Hi.
    rewrite (nth_indep _ dflt [] Hi). rewrite Hl in Hi.
    rewrite (Hrow i Hi).
    rewrite !length_app.
    rewrite (proj1 (valid_row a i Va ltac:(now rewrite Ha))).
    rewrite (proj1 (valid_row b i Vb ltac:(now rewrite Hb))).
    rewrite (proj1 (valid_row c i Vc ltac:(now rewrite Hc))).
    rewrite (proj1 (valid_row d i Vd ltac:(now rewrite Hd))).
    lia.
  - apply Forall_nth. intros i dflt Hi.
    rewrite (nth_indep _ dflt [] Hi). rewrite Hl in Hi.
    rewrite (Hrow i Hi).
    rewrite !forallb_app.
    rewrite (proj2 (valid_row a i Va ltac:(now rewrite Ha))).
    rewrite (proj2 (valid_row b i Vb ltac:(now rewrite Hb))).
    rewrite (proj2 (valid_row c i Vc ltac:(now rewrite Hc))).
    rewrite (proj2 (valid_row d i Vd ltac:(now rewrite Hd))).
    reflexivity.
Qed.

End Arrays.

(** ** Runs of [fit_transform] *)

(** [reducers] reads the reducer attributes through the assignments made
    so far; [next_fit] walks into the next reducer call of an unfolded
    [fit_transform]. *)
Ltac reducers :=
  cbn [pca_metabolomics pca_bulk_rna pca_spatial pca_sc_rna pca_joint
       set_pca_metabolomics set_pca_bulk_rna set_pca_spatial set_pca_sc_rna
       set_pca_joint].

Ltac next_fit E :=
  reducers;
  match goal with
  | |- context [PCA.fit_transform ?p ?g ?X] =>
      let p' := fresh "p" in
      let g' := fresh "g" in
      let X' := fresh "X" in
      let r := fresh "r" in
      destruct (PCA.fit_transform p g X) as [[[p' g'] X'] r] eqn:E
  end.

Section Runs.
Context `{B : Backend}.

Lemma same_rows_check (m b s c : ndarray) :
  ((fst (shape b) =? fst (shape m))%nat
   && (fst (shape s) =? fst (shape m))%nat
   && (fst (shape c) =? fst (shape m))%nat) = true
  <-> same_rows m b s c.
Proof.
  unfold same_rows. rewrite !andb_true_iff, !Nat.eqb_eq. tauto.
Qed.

(** A call returns a value exactly when it is such a run. *)
Lemma fit_transform_returns self g m b s c Y :
  returned (fit_transform self g m b s c) = inr Y ->
  completes self g m b s c (fit_transform self g m b s c).
Proof.
  unfold fit_transform.
  destruct ((fst (shape b) =? fst (shape m))%nat
            && (fst (shape s) =? fst (shape m))%nat
            && (fst (shape c) =? fst (shape m))%nat) eqn:Hrows;
    cbn [negb]; [|discriminate].
  apply same_rows_check in Hrows.
  destruct (PCA.fit_transform (pca_metabolomics self) g m)
    as [[[p1 g1] m1] [e|lm]] eqn:E1; [discriminate|].
  cbn [pca_bulk_rna set_pca_metabolomics].
  destruct (PCA.fit_transform (pca_bulk_rna self) g1 b)
    as [[[p2 g2] b1] [e|lb]] eqn:E2; [discriminate|].
  cbn [pca_spatial set_pca_bulk_rna set_pca_metabolomics].
  destruct (PCA.fit_transform (pca_spatial self) g2 s)
    as [[[p3 g3] s1] [e|ls]] eqn:E3; [discriminate|].
  cbn [pca_sc_rna set_pca_spatial set_pca_bulk_rna set_pca_metabolomics].
  destruct (PCA.fit_transform (pca_sc_rna self) g3 c)
    as [[[p4 g4] c1] [e|lc]] eqn:E4; [discriminate|].
  destruct (hstack [lm; lb; ls; lc]) as [e|C] eqn:EC; [discriminate|].
  cbn [pca_joint set_pca_sc_rna set_pca_spatial set_pca_bulk_rna
       set_pca_metabolomics].
  destruct (PCA.fit_transform (pca_joint self) g4 C)
    as [[[p5 g5] C1] r] eqn:E5.
  cbn [returned]. intros ->.
  unfold set_pca_joint, set_pca_sc_rna, set_pca_spatial, set_pca_bulk_rna,
    set_pca_metabolomics.
  cbn [n_components random_state pca_metabolomics pca_bulk_rna pca_spatial
       pca_sc_rna pca_joint].
  eapply Completes; eassumption.
Qed.

Lemma completes_fit_transform self g m b s c o :
  completes self g m b s c o -> fit_transform self g m b s c = o.
Proof.
  intros Hrun. destruct Hrun as [p1 g1 m1 lm p2 g2 b1 lb p3 g3 s1 ls
    p4 g4 c1 lc C p5 g5 C1 Y Hrows E1 E2 E3 E4 EC E5].
  unfold fit_transform.
  apply same_rows_check in Hrows. rewrite Hrows. cbn [negb].
  rewrite E1. cbn [pca_bulk_rna set_pca_metabolomics]. rewrite E2.
  cbn [pca_spatial set_pca_bulk_rna set_pca_metabolomics]. rewrite E3.
  cbn [pca_sc_rna set_pca_spatial set_pca_bulk_rna set_pca_metabolomics].
  rewrite E4, EC.
  cbn [pca_joint set_pca_sc_rna set_pca_spatial set_pca_bulk_rna
       set_pca_metabolomics].
  rewrite E5. reflexivity.
Qed.

(** One fit, read off the estimator's method. *)
Lemma PCA_fit_transform_inr p g X p' g' X' Y :
  PCA.fit_transform p g X = (p', g', X', inr Y) ->
  exists f,
    pca_fit_transform (PCA.n_components p) (PCA.random_state p)
      (PCA.copy p) g X = (g', X', inr (f, Y))
    /\ p' = PCA.set_fitted p f.
Proof.
  unfold PCA.fit_transform.
  destruct (pca_fit_transform _ _ _ g X) as [[g0 X0] [e|[f Y0]]];
    intros E; inversion E; subst.
  exists f. split; reflexivity.
Qed.

Lemma PCA_fit_transform_intro p g X g' X' f Y :
  pca_fit_transform (PCA.n_components p) (PCA.random_state p)
    (PCA.copy p) g X = (g', X', inr (f, Y)) ->
  PCA.fit_transform p g X = (PCA.set_fitted p f, g', X', inr Y).
Proof. unfold PCA.fit_transform. now intros ->. Qed.

Lemma reducer_of_set_fitted self p f :
  reducer_of self p -> reducer_of self (PCA.set_fitted p f).
Proof. unfold reducer_of. cbn. tauto. Qed.





(** C2. When the four input matrices do not all have the same row count,
    [fit_transform] raises the [ShapeMismatch] error at once: whatever the
    reducers would compute, none is called; the integrator with its five
    reducers, numpy's generator and the inputs are as before, and no
    latent matrix has been produced. *)
Theorem mismatch_fails_fast
    self g metabolomics bulk_rna spatial_trans sc_rna :
  ~ same_rows metabolomics bulk_rna spatial_trans sc_rna ->
  fit_transform self g metabolomics bulk_rna spatial_trans sc_rna
  = Outcome self g (metabolomics, bulk_rna, spatial_trans, sc_rna)
      (Locals None None None None None) (inl ShapeMismatch).
Proof.
  intros Hrows. unfold fit_transform.
  destruct ((fst (shape bulk_rna) =? fst (shape metabolomics))%nat
            && (fst (shape spatial_trans) =? fst (shape metabolomics))%nat
            && (fst (shape sc_rna) =? fst (shape metabolomics))%nat) eqn:E.
  - apply same_rows_check in E. contradiction.
  - reflexivity.
Qed.


End Runs.

(** ** Properties of the pipeline *)

Section Pipeline.
Context `{B : Backend} {BS : BackendSpec B}.

(** A configured reducer accepts such a layer, leaves the data as it
    was and returns [n] rows of [k] finite columns. *)
Lemma reducer_accepts self p g X n :
  reducer_of self p ->
  (1 <= n_components self <= Z.of_nat n)%Z ->
  layer (n_components self) n X ->
  exists g' f Y,
    PCA.fit_transform p g X = (PCA.set_fitted p f, g', X, inr Y)
    /\ layer (n_components self) n Y
    /\ Z.of_nat (snd (shape Y)) = n_components self.
Proof.
  intros (Hk & Hrs & Hc) Hkn (Hv & Hn & Hd).
  destruct (pca_accepts (n_components self) (random_state self) true g X Hv)
    as (g' & X' & f & Y & E); [lia|].
  pose proof (pca_copy _ _ _ _ _ _ _ E) as ->.
  destruct (pca_shape _ _ _ _ _ _ _ _ _ E) as (Hr & Hw & HvY).
  exists g', f, Y. split.
  - apply PCA_fit_transform_intro. now rewrite Hk, Hrs, Hc.
  - unfold layer. repeat split; trivial; try lia; congruence.
Qed.

(** Valid inputs are carried through all five fits. *)
Lemma valid_run self g m b s c n :
  configured self ->
  (1 <= n_components self <= Z.of_nat n)%Z ->
  layer (n_components self) n m -> layer (n_components self) n b ->
  layer (n_components self) n s -> layer (n_components self) n c ->
  exists o, completes self g m b s c o.
Proof.
  intros (R1 & R2 & R3 & R4 & R5) Hkn Lm Lb Ls Lc.
  destruct (reducer_accepts self _ g m n R1 Hkn Lm)
    as (g1 & f1 & lm & E1 & (Vm & Nm & _) & Wm).
  destruct (reducer_accepts self _ g1 b n R2 Hkn Lb)
    as (g2 & f2 & lb & E2 & (Vb & Nb & _) & Wb).
  destruct (reducer_accepts self _ g2 s n R3 Hkn Ls)
    as (g3 & f3 & ls & E3 & (Vs & Ns & _) & Ws).
  destruct (reducer_accepts self _ g3 c n R4 Hkn Lc)
    as (g4 & f4 & lc & E4 & (Vc & Nc & _) & Wc).
  destruct (hstack_four lm lb ls lc n Vm Vb Vs Vc Nm Nb Ns Nc)
    as (C & EC & SC & VC & _).
  assert (LC : layer (n_components self) n C).
  { repeat split; trivial; rewrite SC; cbn [fst snd]; [reflexivity|lia]. }
  destruct (reducer_accepts self _ g4 C n R5 Hkn LC)
    as (g5 & f5 & Y & E5 & _).
  eexists. eapply Completes; try eassumption.
  destruct Lm as (_ & <- & _), Lb as (_ & Hb & _), Ls as (_ & Hs & _),
    Lc as (_ & Hc & _).
  repeat split; assumption.
Qed.



Lemma PCA_fit_transform_copy p g X p' g' X' r :
  PCA.copy p = true ->
  PCA.fit_transform p g X = (p', g', X', r) -> X' = X.
Proof.
  unfold PCA.fit_transform. intros ->.
  destruct (pca_fit_transform _ _ true g X) as [[g0 X0] r0] eqn:E.
  apply pca_copy in E. subst X0.
  destruct r0 as [e|[f Y]]; intros E'; inversion E'; reflexivity.
Qed.

(** C10. [fit_transform] never modifies its four input matrices: whether
    the call returns or raises, the arrays passed as [metabolomics],
    [bulk_rna], [spatial_trans] and [sc_rna] hold what they held. *)
Theorem inputs_untouched
    self g metabolomics bulk_rna spatial_trans sc_rna :
  configured self ->
  inputs_after (fit_transform self g metabolomics bulk_rna spatial_trans sc_rna)
  = (metabolomics, bulk_rna, spatial_trans, sc_rna).
Proof.
  intros ((_ & _ & C1) & (_ & _ & C2) & (_ & _ & C3) & (_ & _ & C4) & _).
  unfold fit_transform.
  destruct (negb _); [reflexivity|].
  next_fit E1. apply (PCA_fit_transform_copy _ _ _ _ _ _ _ C1) in E1. subst.
  destruct r; [reflexivity|].
  next_fit E2. apply (PCA_fit_transform_copy _ _ _ _ _ _ _ C2) in E2. subst.
  destruct r; [reflexivity|].
  next_fit E3. apply (PCA_fit_transform_copy _ _ _ _ _ _ _ C3) in E3. subst.
  destruct r; [reflexivity|].
  next_fit E4. apply (PCA_fit_transform_copy _ _ _ _ _ _ _ C4) in E4. subst.
  destruct r; [reflexivity|].
  destruct (hstack _); [reflexivity|].
  next_fit E5. reflexivity.
Qed.

(** A seeded estimator is a function of its data alone and leaves numpy's
    global generator where it was. *)
Lemma PCA_seeded p seed X :
  PCA.random_state p = Some seed ->
  exists p' X' r, forall g, PCA.fit_transform p g X = (p', g, X', r).
Proof.
  intros Hrs.
  destruct (pca_seeded (PCA.n_components p) seed (PCA.copy p) X)
    as (X' & r & Hg).
  unfold PCA.fit_transform. rewrite Hrs.
  destruct r as [e|[f Y]].
  - exists p, X', (inl e). intros g. now rewrite Hg.
  - exists (PCA.set_fitted p f), X', (inr Y). intros g. now rewrite Hg.
Qed.

Lemma fit_transform_seeded self seed m b s c :
  configured self -> random_state self = Some seed ->
  exists self' ins fr r,
    forall g, fit_transform self g m b s c = Outcome self' g ins fr r.
Proof.
  intros ((_ & R1 & _) & (_ & R2 & _) & (_ & R3 & _) & (_ & R4 & _)
          & (_ & R5 & _)) Hseed.
  rewrite Hseed in R1, R2, R3, R4, R5.
  unfold fit_transform.
  destruct (negb _); [do 4 eexists; intros g; reflexivity|].
  destruct (PCA_seeded _ seed m R1) as (p1 & m1 & r1 & H1).
  destruct r1 as [e|lm];
    [do 4 eexists; intros g; rewrite H1; reflexivity|].
  destruct (PCA_seeded _ seed b R2) as (p2 & b1 & r2 & H2).
  destruct r2 as [e|lb];
    [do 4 eexists; intros g; rewrite H1; reducers; rewrite H2; reflexivity|].
  destruct (PCA_seeded _ seed s R3) as (p3 & s1 & r3 & H3).
  destruct r3 as [e|ls];
    [do 4 eexists; intros g; rewrite H1; reducers; rewrite H2; reducers;
     rewrite H3; reflexivity|].
  destruct (PCA_seeded _ seed c R4) as (p4 & c1 & r4 & H4).
  destruct r4 as [e|lc];
    [do 4 eexists; intros g; rewrite H1; reducers; rewrite H2; reducers;
     rewrite H3; reducers; rewrite H4; reflexivity|].
  assert (EC : exists h, hstack [lm; lb; ls; lc] = h) by (eexists; reflexivity).
  destruct EC as [[e|C] EC];
    [do 4 eexists; intros g; rewrite H1; reducers; rewrite H2; reducers;
     rewrite H3; reducers; rewrite H4, EC; reflexivity|].
  destruct (PCA_seeded _ seed C R5) as (p5 & C1 & r5 & H5).
  do 4 eexists; intros g; rewrite H1; reducers; rewrite H2; reducers;
    rewrite H3; reducers; rewrite H4, EC; reducers; rewrite H5; reflexivity.
Qed.

Lemma post_init_configured k rs : configured (__post_init__ k rs).
Proof. unfold configured, reducer_of. cbn. intuition reflexivity. Qed.

(** C5. For a configuration with [random_state] set, two [fit_transform]
    calls on two freshly constructed integrators with identical inputs
    return equal outputs, whatever state numpy's global generator is in
    at either call; the integrators and the locals end up equal too. *)
Theorem seeded_runs_agree
    k seed g1 g2 metabolomics bulk_rna spatial_trans sc_rna :
  let o1 := fit_transform (__post_init__ k (Some seed)) g1
              metabolomics bulk_rna spatial_trans sc_rna in
  let o2 := fit_transform (__post_init__ k (Some seed)) g2
              metabolomics bulk_rna spatial_trans sc_rna in
  returned o1 = returned o2
  /\ self_after o1 = self_after o2
  /\ frame o1 = frame o2
  /\ inputs_after o1 = inputs_after o2.
Proof.
  intros o1 o2. subst o1 o2.
  destruct (fit_transform_seeded (__post_init__ k (Some seed)) seed
              metabolomics bulk_rna spatial_trans sc_rna
              (post_init_configured k (Some seed)) eq_refl)
    as (self' & ins & fr & r & Hg).
  rewrite (Hg g1), (Hg g2). cbn. auto.
Qed.




(** C4. In every successful [fit_transform] call the four per-layer
    latent matrices are concatenated column-wise in the order
    metabolomics, bulk RNA, spatial transcriptomics, single-cell RNA; the
    concatenation has [4 * n_components] columns and is the data the
    joint reducer is fitted on. *)
Theorem latents_concatenated_in_order
    self g metabolomics bulk_rna spatial_trans sc_rna Y :
  let o := fit_transform self g metabolomics bulk_rna spatial_trans sc_rna in
  configured self ->
  returned o = inr Y ->
  exists lm lb ls lc C,
    frame o = Locals (Some lm) (Some lb) (Some ls) (Some lc) (Some C)
    /\ latent_of self metabolomics lm
    /\ latent_of self bulk_rna lb
    /\ latent_of self spatial_trans ls
    /\ latent_of self sc_rna lc
    /\ hstack [lm; lb; ls; lc] = inr C
    /\ (forall i, (i < fst (shape C))%nat ->
          nth i (data C) [] =
          nth i (data lm) [] ++ nth i (data lb) []
          ++ nth i (data ls) [] ++ nth i (data lc) [])
    /\ Z.of_nat (snd (shape C)) = (4 * n_components self)%Z
    /\ latent_of self C Y.
Proof.
  intros o Hcfg Hret. subst o.
  destruct Hcfg as ((K1 & S1 & C1) & (K2 & S2 & C2) & (K3 & S3 & C3)
                    & (K4 & S4 & C4) & (K5 & S5 & C5)).
  pose proof (fit_transform_returns _ _ _ _ _ _ _ Hret) as Hrun.
  revert Hret.
  destruct Hrun as [p1 g1 m1 lm p2 g2 b1 lb p3 g3 s1 ls
    p4 g4 c1 lc C p5 g5 C' Y' (Hb & Hs & Hc) E1 E2 E3 E4 EC E5].
  cbn [returned]. intros Hret. inversion Hret; subst Y'.
  apply PCA_fit_transform_inr in E1, E2, E3, E4, E5.
  destruct E1 as (f1 & E1 & _), E2 as (f2 & E2 & _), E3 as (f3 & E3 & _),
    E4 as (f4 & E4 & _), E5 as (f5 & E5 & _).
  rewrite K1, S1, C1 in E1. rewrite K2, S2, C2 in E2.
  rewrite K3, S3, C3 in E3. rewrite K4, S4, C4 in E4.
  rewrite K5, S5, C5 in E5.
  pose proof (pca_copy _ _ _ _ _ _ _ E5) as ->.
  destruct (pca_shape _ _ _ _ _ _ _ _ _ E1) as (N1 & W1 & V1).
  destruct (pca_shape _ _ _ _ _ _ _ _ _ E2) as (N2 & W2 & V2).
  destruct (pca_shape _ _ _ _ _ _ _ _ _ E3) as (N3 & W3 & V3).
  destruct (pca_shape _ _ _ _ _ _ _ _ _ E4) as (N4 & W4 & V4).
  destruct (hstack_four lm lb ls lc (fst (shape metabolomics)) V1 V2 V3 V4)
    as (C0 & EC0 & SC & _ & Hrow); try congruence.
  rewrite EC in EC0. inversion EC0; subst C0.
  exists lm, lb, ls, lc, C. cbn [frame].
  split; [reflexivity|].
  split; [now exists g, g1, m1, f1|].
  split; [now exists g1, g2, b1, f2|].
  split; [now exists g2, g3, s1, f3|].
  split; [now exists g3, g4, c1, f4|].
  split; [exact EC|].
  split; [rewrite SC; exact Hrow|].
  split; [rewrite SC; cbn [snd]; lia|].
  now exists g4, g5, C, f5.
Qed.




(** What [demo] hands back once the integrator has run. *)
Lemma demo_generates n_samples rs e g :
  (0 <= n_samples)%Z ->
  exists m b s c,
    (layer 10 (Z.to_nat n_samples) m /\ snd (shape m) = 50%nat)
    /\ (layer 10 (Z.to_nat n_samples) b /\ snd (shape b) = 1000%nat)
    /\ (layer 10 (Z.to_nat n_samples) s /\ snd (shape s) = 200%nat)
    /\ (layer 10 (Z.to_nat n_samples) c /\ snd (shape c) = 500%nat)
    /\ demo n_samples rs e g =
       let o := fit_transform (__post_init__ 10 rs) g m b s c in
       (random_after o,
        match returned o with
        | inl err => inl err
        | inr Y => inr (Y, self_after o)
        end).
Proof.
  intros Hn. unfold demo.
  destruct (standard_normal_shape (default_rng rs e) n_samples 50 Hn)
    as (r1 & m & E1 & Vm & Sm); [lia|].
  destruct (standard_normal_shape r1 n_samples 1000 Hn)
    as (r2 & b & E2 & Vb & Sb); [lia|].
  destruct (standard_normal_shape r2 n_samples 200 Hn)
    as (r3 & s & E3 & Vs & Ss); [lia|].
  destruct (standard_normal_shape r3 n_samples 500 Hn)
    as (r4 & c & E4 & Vc & Sc); [lia|].
  rewrite E1, E2, E3, E4.
  exists m, b, s, c. unfold layer.
  rewrite Sm, Sb, Ss, Sc. cbn [fst snd].
  repeat split; trivial; try lia.
  cbv zeta.
  destruct (returned (fit_transform (__post_init__ 10 rs) g m b s c));
    reflexivity.
Qed.


End Pipeline.

(** ** Further properties of [fit_transform]

    What the method never reads, what a call that returns must have
    seen, and where its errors can come from. *)

Section Reads.
Context `{B : Backend}.

(** X1. [fit_transform] works from the five reducers alone: the fields
    [n_components] and [random_state] of the integrator are read by
    [__post_init__] only, so assigning to them after construction
    changes nothing of a later call but the two fields themselves. *)
Theorem fields_are_not_reread self k' rs' g m b s c :
  let self' := mk_integrator k' rs' (pca_metabolomics self)
                 (pca_bulk_rna self) (pca_spatial self) (pca_sc_rna self)
                 (pca_joint self) in
  let o := fit_transform self g m b s c in
  let o' := fit_transform self' g m b s c in
  returned o' = returned o
  /\ frame o' = frame o
  /\ random_after o' = random_after o
  /\ inputs_after o' = inputs_after o
  /\ pca_metabolomics (self_after o') = pca_metabolomics (self_after o)
  /\ pca_bulk_rna (self_after o') = pca_bulk_rna (self_after o)
  /\ pca_spatial (self_after o') = pca_spatial (self_after o)
  /\ pca_sc_rna (self_after o') = pca_sc_rna (self_after o)
  /\ pca_joint (self_after o') = pca_joint (self_after o)
  /\ n_components (self_after o') = k'
  /\ random_state (self_after o') = rs'.
Proof.
  intros self' o o'. subst self' o o'. unfold fit_transform.
  destruct (negb _); [cbn; intuition reflexivity|].
  reducers.
  destruct (PCA.fit_transform (pca_metabolomics self) g m)
    as [[[p1 g1] m1] [e|lm]]; [cbn; intuition reflexivity|].
  reducers.
  destruct (PCA.fit_transform (pca_bulk_rna self) g1 b)
    as [[[p2 g2] b1] [e|lb]]; [cbn; intuition reflexivity|].
  reducers.
  destruct (PCA.fit_transform (pca_spatial self) g2 s)
    as [[[p3 g3] s1] [e|ls]]; [cbn; intuition reflexivity|].
  reducers.
  destruct (PCA.fit_transform (pca_sc_rna self) g3 c)
    as [[[p4 g4] c1] [e|lc]]; [cbn; intuition reflexivity|].
  destruct (hstack [lm; lb; ls; lc]) as [e|C];
    [cbn; intuition reflexivity|].
  reducers.
  destruct (PCA.fit_transform (pca_joint self) g4 C) as [[[p5 g5] C1] r].
  cbn; intuition reflexivity.
Qed.

Lemma PCA_fit_transform_inl p g X p' g' X' e :
  PCA.fit_transform p g X = (p', g', X', inl e) ->
  pca_fit_transform (PCA.n_components p) (PCA.random_state p)
    (PCA.copy p) g X = (g', X', inl e)
  /\ p' = p.
Proof.
  unfold PCA.fit_transform.
  destruct (pca_fit_transform _ _ _ g X) as [[g0 X0] [e0|[f Y0]]];
    intros E; inversion E; subst. split; reflexivity.
Qed.

Lemma hstack_rows_of_first a rest C :
  hstack (a :: rest) = inr C -> fst (shape C) = fst (shape a).
Proof.
  unfold hstack. destruct (forallb _ rest); intros E; inversion E.
  reflexivity.
Qed.

End Reads.

Section Returns.
Context `{B : Backend} {BS : BackendSpec B}.

(** What a returning call of a configured integrator implies. *)
Lemma returning_call self g m b s c Y :
  configured self ->
  returned (fit_transform self g m b s c) = inr Y ->
  same_rows m b s c
  /\ valid Y = true
  /\ fst (shape Y) = fst (shape m)
  /\ Z.of_nat (snd (shape Y)) = n_components self.
Proof.
  intros (R1 & _ & _ & _ & (K5 & _ & _)) Hret.
  destruct R1 as (K1 & _ & _).
  pose proof (fit_transform_returns _ _ _ _ _ _ _ Hret) as Hrun.
  revert Hret.
  destruct Hrun as [p1 g1 m1 lm p2 g2 b1 lb p3 g3 s1 ls
    p4 g4 c1 lc C p5 g5 C' Y' Hrows E1 E2 E3 E4 EC E5].
  cbn [returned]. intros Hret. inversion Hret; subst Y'.
  apply PCA_fit_transform_inr in E1, E5.
  destruct E1 as (f1 & E1 & _), E5 as (f5 & E5 & _).
  apply pca_shape in E1, E5.
  destruct E1 as (N1 & _ & _), E5 as (N5 & W5 & V5).
  apply hstack_rows_of_first in EC.
  split; [exact Hrows|]. split; [exact V5|].
  split; congruence.
Qed.


(** X3. The constructor does not validate [n_components]: a negative
    value is stored as it is and surfaces only at [fit_transform], every
    call of which then raises. *)
Theorem negative_components_always_raise k rs g m b s c :
  (k < 0)%Z ->
  exists e,
    returned (fit_transform (__post_init__ k rs) g m b s c) = inl e.
Proof.
  intros Hk.
  destruct (returned (fit_transform (__post_init__ k rs) g m b s c))
    as [e|Y] eqn:Hret; [now exists e|].
  destruct (returning_call _ g m b s c Y (post_init_configured k rs) Hret)
    as (_ & _ & _ & HW).
  cbn [n_components __post_init__] in HW. lia.
Qed.

(** X4. An error of [fit_transform] is either the one of the row-count
    check, raised exactly when the row counts differ, or one that a
    reducer raised on a layer or on the concatenation: [np.hstack] itself
    never fails in this method. *)
Theorem errors_are_mismatch_or_reducer self g m b s c e :
  configured self ->
  returned (fit_transform self g m b s c) = inl e ->
  (e = ShapeMismatch /\ ~ same_rows m b s c)
  \/ (same_rows m b s c
      /\ exists g0 X g1 X1,
           pca_fit_transform (n_components self) (random_state self) true
             g0 X = (g1, X1, inl e)).
Proof.
  intros ((K1 & S1 & C1) & (K2 & S2 & C2) & (K3 & S3 & C3)
          & (K4 & S4 & C4) & (K5 & S5 & C5)).
  unfold fit_transform.
  destruct ((fst (shape b) =? fst (shape m))%nat
            && (fst (shape s) =? fst (shape m))%nat
            && (fst (shape c) =? fst (shape m))%nat) eqn:Hrows;
    cbn [negb].
  2:{ cbn [returned]. intros E. inversion E. left. split; [reflexivity|].
      intros H. apply same_rows_check in H. congruence. }
  apply same_rows_check in Hrows.
  next_fit E1. destruct r as [e1|lm].
  { cbn [returned]. intros E. inversion E; subst e1.
    apply PCA_fit_transform_inl in E1. destruct E1 as [E1 _].
    rewrite K1, S1, C1 in E1. right. split; [exact Hrows|]. eauto. }
  next_fit E2. destruct r as [e2|lb].
  { cbn [returned]. intros E. inversion E; subst e2.
    apply PCA_fit_transform_inl in E2. destruct E2 as [E2 _].
    rewrite K2, S2, C2 in E2. right. split; [exact Hrows|]. eauto. }
  next_fit E3. destruct r as [e3|ls].
  { cbn [returned]. intros E. inversion E; subst e3.
    apply PCA_fit_transform_inl in E3. destruct E3 as [E3 _].
    rewrite K3, S3, C3 in E3. right. split; [exact Hrows|]. eauto. }
  next_fit E4. destruct r as [e4|lc].
  { cbn [returned]. intros E. inversion E; subst e4.
    apply PCA_fit_transform_inl in E4. destruct E4 as [E4 _].
    rewrite K4, S4, C4 in E4. right. split; [exact Hrows|]. eauto. }
  apply PCA_fit_transform_inr in E1, E2, E3, E4.
  destruct E1 as (f1 & E1 & _), E2 as (f2 & E2 & _), E3 as (f3 & E3 & _),
    E4 as (f4 & E4 & _).
  apply pca_shape in E1, E2, E3, E4.
  destruct E1 as (N1 & _), E2 as (N2 & _), E3 as (N3 & _), E4 as (N4 & _).
  destruct Hrows as (Hb & Hs & Hc).
  destruct (hstack [lm; lb; ls; lc]) as [eh|C] eqn:EC.
  { exfalso. unfold hstack in EC. cbn [forallb] in EC.
    rewrite N1, N2, N3, N4, Hb, Hs, Hc, Nat.eqb_refl in EC.
    discriminate EC. }
  next_fit E5. destruct r as [e5|Y].
  - cbn [returned]. intros E. inversion E; subst e5.
    apply PCA_fit_transform_inl in E5. destruct E5 as [E5 _].
    rewrite K5, S5, C5 in E5. right.
    split; [unfold same_rows; auto|]. eauto.
  - cbn [returned]. discriminate.
Qed.

(** X5. With [random_state] set, [fit_transform] leaves numpy's global
    generator in the state it found it, whether it returns or raises. *)
Theorem seeded_call_spares_generator self seed g m b s c :
  configured self -> random_state self = Some seed ->
  random_after (fit_transform self g m b s c) = g.
Proof.
  intros Hcfg Hseed.
  destruct (fit_transform_seeded self seed m b s c Hcfg Hseed)
    as (self' & ins & fr & r & Hg).
  now rewrite (Hg g).
Qed.

End Returns.

(** ** Rejected layers *)

Section Rejections.
Context `{B : Backend} {BS : BackendSpec B}.







End Rejections.

(** ** Calling again *)

Section Again.
Context `{B : Backend} {BS : BackendSpec B}.

(** A seeded estimator fitted on some data is left as it is by another
    fit on the same data. *)
Lemma PCA_seeded_again p seed X :
  PCA.random_state p = Some seed ->
  exists p' X' r,
    (forall g, PCA.fit_transform p g X = (p', g, X', r))
    /\ (forall g, PCA.fit_transform p' g X = (p', g, X', r)).
Proof.
  intros Hrs.
  destruct (pca_seeded (PCA.n_components p) seed (PCA.copy p) X)
    as (X' & r & Hg).
  unfold PCA.fit_transform. rewrite Hrs.
  destruct r as [e|[f Y]].
  - exists p, X', (inl e). rewrite Hrs.
    split; intros g; now rewrite Hg.
  - exists (PCA.set_fitted p f), X', (inr Y).
    cbn [PCA.n_components PCA.random_state PCA.copy PCA.set_fitted].
    rewrite Hrs.
    split; intros g; now rewrite Hg.
Qed.

(** X9. With [random_state] set, calling [fit_transform] again on the
    same data changes nothing: whether the first call returned or raised,
    the second one leaves every reducer as the first left it, and returns
    the same matrix or raises the same error. *)
Theorem seeded_call_again_changes_nothing self seed g g' m b s c :
  configured self -> random_state self = Some seed ->
  let o := fit_transform self g m b s c in
  let o' := fit_transform (self_after o) g' m b s c in
  self_after o' = self_after o
  /\ returned o' = returned o
  /\ frame o' = frame o.
Proof.
  intros ((_ & R1 & _) & (_ & R2 & _) & (_ & R3 & _) & (_ & R4 & _)
          & (_ & R5 & _)) Hseed o o'. subst o o'.
  rewrite Hseed in R1, R2, R3, R4, R5.
  destruct (PCA_seeded_again _ seed m R1) as (p1 & m1 & r1 & H1 & H1').
  destruct (PCA_seeded_again _ seed b R2) as (p2 & b1 & r2 & H2 & H2').
  destruct (PCA_seeded_again _ seed s R3) as (p3 & s1 & r3 & H3 & H3').
  destruct (PCA_seeded_again _ seed c R4) as (p4 & c1 & r4 & H4 & H4').
  unfold fit_transform.
  destruct (negb _); [cbn; auto|].
  rewrite !(H1 g).
  destruct r1 as [e|lm].
  { cbn [self_after]. reducers. rewrite (H1' g'). cbn. auto. }
  reducers. rewrite !(H2 g).
  destruct r2 as [e|lb].
  { cbn [self_after]. reducers. rewrite (H1' g'). reducers.
    rewrite (H2' g'). cbn. auto. }
  reducers. rewrite !(H3 g).
  destruct r3 as [e|ls].
  { cbn [self_after]. reducers. rewrite (H1' g'). reducers.
    rewrite (H2' g'). reducers. rewrite (H3' g'). cbn. auto. }
  reducers. rewrite !(H4 g).
  destruct r4 as [e|lc].
  { cbn [self_after]. reducers. rewrite (H1' g'). reducers.
    rewrite (H2' g'). reducers. rewrite (H3' g'). reducers.
    rewrite (H4' g'). cbn. auto. }
  destruct (hstack [lm; lb; ls; lc]) as [e|C] eqn:EC.
  { cbn [self_after]. reducers. rewrite (H1' g'). reducers.
    rewrite (H2' g'). reducers. rewrite (H3' g'). reducers.
    rewrite (H4' g'), EC. cbn. auto. }
  reducers.
  destruct (PCA_seeded_again _ seed C R5) as (p5 & C1 & r5 & H5 & H5').
  rewrite !(H5 g).
  cbn [self_after]. reducers. rewrite (H1' g'). reducers.
  rewrite (H2' g'). reducers. rewrite (H3' g'). reducers.
  rewrite (H4' g'), EC. reducers. rewrite (H5' g').
  cbn. auto.
Qed.

End Again.

(** ** [demo] and the script *)

Section Demo.
Context `{B : Backend} {BS : BackendSpec B}.

(** With ten samples or more [demo] returns, and what it returns is the
    joint latent matrix and the integrator as the fit left it. *)
Lemma demo_returns n_samples rs e g :
  (10 <= n_samples)%Z ->
  exists Y integrator g',
    demo n_samples rs e g = (g', inr (Y, integrator))
    /\ shape Y = (Z.to_nat n_samples, 10%nat)
    /\ n_components integrator = 10%Z
    /\ random_state integrator = rs
    /\ PCA.fitted (pca_metabolomics integrator) <> None
    /\ PCA.fitted (pca_bulk_rna integrator) <> None
    /\ PCA.fitted (pca_spatial integrator) <> None
    /\ PCA.fitted (pca_sc_rna integrator) <> None
    /\ PCA.fitted (pca_joint integrator) <> None.
Proof.
  intros Hn.
  destruct (demo_generates n_samples rs e g ltac:(lia))
    as (m & b & s & c & (Lm & _) & (Lb & _) & (Ls & _) & (Lc & _) & E).
  rewrite E. cbv zeta.
  assert (Hk : (1 <= n_components (__post_init__ 10 rs)
                <= Z.of_nat (Z.to_nat n_samples))%Z)
    by (cbn [n_components __post_init__]; lia).
  destruct (valid_run (__post_init__ 10 rs) g m b s c (Z.to_nat n_samples)
              (post_init_configured 10 rs) Hk Lm Lb Ls Lc) as [o Hrun].
  pose proof (completes_fit_transform _ _ _ _ _ _ _ Hrun) as Ho.
  assert (Hret : exists Y, returned o = inr Y)
    by (destruct Hrun; eexists; reflexivity).
  destruct Hret as [Y Hret].
  rewrite Ho, Hret.
  rewrite <- Ho in Hret.
  destruct (returning_call _ g m b s c Y (post_init_configured 10 rs) Hret)
    as (_ & _ & HN & HW).
  exists Y, (self_after o), (random_after o).
  split; [reflexivity|].
  split.
  { destruct Lm as (_ & Nm & _).
    cbn [n_components __post_init__] in HW.
    rewrite (surjective_pairing (shape Y)), HN, Nm. f_equal. lia. }
  destruct Hrun as [p1 g1 m1 lm p2 g2 b1 lb p3 g3 s1 ls
    p4 g4 c1 lc C p5 g5 C1 Y' Hrows E1 E2 E3 E4 EC E5].
  apply PCA_fit_transform_inr in E1, E2, E3, E4, E5.
  destruct E1 as (f1 & _ & ->), E2 as (f2 & _ & ->), E3 as (f3 & _ & ->),
    E4 as (f4 & _ & ->), E5 as (f5 & _ & ->).
  cbn. repeat split; discriminate.
Qed.



(** X12. With a seed, [demo] leaves numpy's global generator in the state
    it found it, for every sample count and on every path: its data
    comes from a generator of its own and its reducers are seeded. *)
Theorem seeded_demo_spares_generator n_samples seed e g :
  fst (demo n_samples (Some seed) e g) = g.
Proof.
  unfold demo.
  destruct (standard_normal _ (n_samples, 50%Z)) as [r1 [e1|m]];
    [reflexivity|].
  destruct (standard_normal _ (n_samples, 1000%Z)) as [r2 [e2|b]];
    [reflexivity|].
  destruct (standard_normal _ (n_samples, 200%Z)) as [r3 [e3|s]];
    [reflexivity|].
  destruct (standard_normal _ (n_samples, 500%Z)) as [r4 [e4|c]];
    [reflexivity|].
  cbv zeta.
  destruct (fit_transform_seeded (__post_init__ 10 (Some seed)) seed m b s c
              (post_init_configured 10 (Some seed)) eq_refl)
    as (self' & ins & fr & r & Hg).
  rewrite (Hg g). cbn [returned random_after].
  destruct r; reflexivity.
Qed.

(** X13. Run as a script, the module prints one line, the label followed
    by the shape [(50, 10)], and raises nothing, whatever entropy and
    generator state it starts from. *)
Theorem main_prints_shape e g :
  snd (main e g)
  = inr ("Integrated latent representation shape: (50, 10)"
         ++ String (ascii_of_nat 10) EmptyString)%string.
Proof.
  unfold main.
  destruct (demo_returns 50 (Some 42%Z) e g ltac:(lia))
    as (Y & integrator & g' & E & HY & _).
  rewrite E. cbn [snd]. rewrite HY. reflexivity.
Qed.

End Demo.

(** ** The reference backend meets the contract *)

Section ReferenceBackend.

Lemma forallb_firstn (A : Type) (f : A -> bool) (k : nat) (l : list A) :
  forallb f l = true -> forallb f (firstn k l) = true.
Proof.
  revert l. induction k as [|k IH]; intros [|x l]; cbn; trivial.
  intros H. apply andb_prop in H. destruct H as [Hx Hl].
  now rewrite Hx, (IH l Hl).
Qed.

Lemma forallb_skipn (A : Type) (f : A -> bool) (k : nat) (l : list A) :
  forallb f l = true -> forallb f (skipn k l) = true.
Proof.
  revert l. induction k as [|k IH]; intros [|x l]; cbn; trivial.
  intros H. apply andb_prop in H. destruct H as [_ Hl]. now apply IH.
Qed.

Lemma window_length k off row :
  (k + off <= List.length row)%nat ->
  List.length (Reference.window k off row) = k.
Proof.
  intros Hk. unfold Reference.window.
  rewrite length_firstn, length_skipn. lia.
Qed.

Lemma window_finite k off row :
  forallb isfinite row = true ->
  forallb isfinite (Reference.window k off row) = true.
Proof.
  intros H. unfold Reference.window.
  now apply forallb_firstn, forallb_skipn.
Qed.

(** The checks of [Reference.pca] pass exactly on data that is valid and
    holds at least [k >= 0] rows and columns, none of them empty; what it
    returns is a window of [k] columns. *)
Lemma reference_pca_inr k rs c g X g' X' f Y :
  Reference.pca k rs c g X = (g', X', inr (f, Y)) ->
  valid X = true
  /\ (0 <= k <= Z.of_nat (Nat.min (fst (shape X)) (snd (shape X))))%Z
  /\ exists off,
       (Z.to_nat k + off <= snd (shape X))%nat
       /\ Y = {| shape := (fst (shape X), Z.to_nat k);
                 data := map (Reference.window (Z.to_nat k) off) (data X) |}.
Proof.
  unfold Reference.pca.
  destruct (valid X); cbn [negb]; [|discriminate].
  destruct (_ || _)%bool eqn:Ec; [discriminate|].
  apply orb_false_elim in Ec. destruct Ec as [Ec _].
  apply orb_false_elim in Ec. destruct Ec as [Ec _].
  apply orb_false_elim in Ec. destruct Ec as [E0 Em].
  apply Z.ltb_ge in E0, Em.
  intros E. inversion E; subst. repeat split; trivial.
  eexists. split; [|reflexivity].
  destruct (Reference.randomized k _ _); [|lia].
  set (seed := match rs with Some s => s | None => g end).
  pose proof (Z.mod_pos_bound seed (Z.of_nat (snd (shape X)) - k + 1)).
  lia.
Qed.

Lemma reference_pca_shape k rs c g X g' X' f Y :
  Reference.pca k rs c g X = (g', X', inr (f, Y)) ->
  fst (shape Y) = fst (shape X) /\ Z.of_nat (snd (shape Y)) = k
  /\ valid Y = true.
Proof.
  intros E. apply reference_pca_inr in E.
  destruct E as (Hv & Hk & off & Hoff & ->).
  destruct (valid_well_formed X Hv) as (Hl & Hr & Hf).
  cbn [shape fst snd]. split; [reflexivity|]. split; [lia|].
  apply valid_intro; cbn [shape data fst snd].
  - now rewrite length_map.
  - apply Forall_map. revert Hr. apply Forall_impl. intros r Hlen.
    apply window_length. lia.
  - apply Forall_map. revert Hf. apply Forall_impl. intros r Hfin.
    now apply window_finite.
Qed.

Lemma reference_pca_accepts k rs c g X :
  valid X = true ->
  (1 <= k <= Z.of_nat (Nat.min (fst (shape X)) (snd (shape X))))%Z ->
  exists g' X' f Y, Reference.pca k rs c g X = (g', X', inr (f, Y)).
Proof.
  intros Hv Hk. unfold Reference.pca. rewrite Hv. cbn [negb].
  assert (E0 : (k <? 0)%Z = false) by (apply Z.ltb_ge; lia).
  assert (Em : (Z.of_nat (Nat.min (fst (shape X)) (snd (shape X))) <? k)%Z
               = false) by (apply Z.ltb_ge; lia).
  assert (En : (fst (shape X) =? 0)%nat = false) by (apply Nat.eqb_neq; lia).
  assert (Ed : (snd (shape X) =? 0)%nat = false) by (apply Nat.eqb_neq; lia).
  rewrite E0, Em, En, Ed. cbn [orb].
  do 4 eexists. reflexivity.
Qed.

Lemma reference_pca_rejects k rs c g X :
  valid X = true ->
  (Z.of_nat (Nat.min (fst (shape X)) (snd (shape X))) < k)%Z ->
  Reference.pca k rs c g X
  = (g, X, inl (ValueError (Reference.message k (shape X)))).
Proof.
  intros Hv Hk. unfold Reference.pca. rewrite Hv. cbn [negb].
  apply Z.ltb_lt in Hk. rewrite Hk.
  now rewrite orb_true_r.
Qed.

Lemma reference_pca_seeded k seed c X :
  exists X' r, forall g, Reference.pca k (Some seed) c g X = (g, X', r).
Proof.
  unfold Reference.pca.
  destruct (negb (valid X)); [do 2 eexists; intros g; reflexivity|].
  destruct (_ || _)%bool; do 2 eexists; intros g; reflexivity.
Qed.

Lemma reference_pca_copy k rs g X g' X' r :
  Reference.pca k rs true g X = (g', X', r) -> X' = X.
Proof.
  unfold Reference.pca.
  destruct (negb (valid X)); [intros E; now inversion E|].
  destruct (_ || _)%bool; intros E; now inversion E.
Qed.

Lemma reference_standard_normal gen n d :
  (0 <= n)%Z -> (0 <= d)%Z ->
  exists gen' X,
    Reference.standard_normal gen (n, d) = (gen', inr X)
    /\ valid X = true /\ shape X = (Z.to_nat n, Z.to_nat d).
Proof.
  intros Hn Hd. unfold Reference.standard_normal.
  assert (En : (n <? 0)%Z = false) by (apply Z.ltb_ge; lia).
  assert (Ed : (d <? 0)%Z = false) by (apply Z.ltb_ge; lia).
  rewrite En, Ed. cbn [orb].
  do 2 eexists. split; [reflexivity|]. split; [|reflexivity].
  apply valid_intro; cbn [shape data fst snd].
  - apply repeat_length.
  - apply Forall_forall. intros r Hin. apply repeat_spec in Hin. subst r.
    apply repeat_length.
  - apply Forall_forall. intros r Hin. apply repeat_spec in Hin. subst r.
    apply forallb_forall. intros x Hin. apply repeat_spec in Hin. subst x.
    destruct (Z.even gen); reflexivity.
Qed.

Lemma reference_spec : BackendSpec Reference.backend.
Proof.
  constructor.
  - exact reference_pca_shape.
  - exact reference_pca_accepts.
  - intros k rs c g X Hv Hk. exists g, X.
    now apply reference_pca_rejects.
  - exact reference_pca_seeded.
  - exact reference_pca_copy.
  - exact reference_standard_normal.
Qed.

End ReferenceBackend.

(** ** The statements at concrete inputs

    Each theorem above applied once on the reference backend, with its
    hypotheses evaluated, and the inputs at which the unrestricted
    wording of C3 and of C6 fails. *)




(** C2 with layers of 2, 3, 2 and 2 rows. *)
Lemma mismatch_fails_fast_witness :
  let m := Reference.two_by_two in
  let b := Reference.zeros 3 2 in
  ~ same_rows m b m m
  /\ @fit_transform Reference.backend (__post_init__ 1 None) 0%Z m b m m
     = @Outcome Reference.backend (__post_init__ 1 None) 0%Z (m, b, m, m)
         (Locals None None None None None) (inl ShapeMismatch).
Proof.
  intros m b.
  assert (H : ~ same_rows m b m m).
  { unfold same_rows. cbn. intros (H & _). discriminate H. }
  split; [exact H|].
  apply (@mismatch_fails_fast Reference.backend (__post_init__ 1 None) 0%Z
           m b m m H).
Defined.



(** C4 on two samples. *)
Lemma latents_concatenated_in_order_witness :
  let self := @__post_init__ Reference.backend 1 None in
  let o := fit_transform self 0%Z Reference.two_by_two Reference.two_by_three
             Reference.two_by_two Reference.two_by_three in
  exists Y,
    returned o = inr Y
    /\ exists lm lb ls lc C,
         frame o = Locals (Some lm) (Some lb) (Some ls) (Some lc) (Some C)
         /\ latent_of self Reference.two_by_two lm
         /\ latent_of self Reference.two_by_three lb
         /\ latent_of self Reference.two_by_two ls
         /\ latent_of self Reference.two_by_three lc
         /\ hstack [lm; lb; ls; lc] = inr C
         /\ (forall i, (i < fst (shape C))%nat ->
               nth i (data C) [] =
               nth i (data lm) [] ++ nth i (data lb) []
               ++ nth i (data ls) [] ++ nth i (data lc) [])
         /\ Z.of_nat (snd (shape C)) = (4 * n_components self)%Z
         /\ latent_of self C Y.
Proof.
  intros self o. eexists. split; [reflexivity|].
  apply (@latents_concatenated_in_order Reference.backend reference_spec
           self 0%Z Reference.two_by_two Reference.two_by_three
           Reference.two_by_two Reference.two_by_three).
  - apply post_init_configured.
  - reflexivity.
Defined.

(** C5 with seed 7, two different states of the global generator, and
    data on which the randomised solver is used. *)
Lemma seeded_runs_agree_witness :
  BackendSpec Reference.backend
  /\ let o1 := @fit_transform Reference.backend (__post_init__ 10 (Some 7%Z))
                 0%Z (Reference.ramp 501 70) (Reference.ramp 501 60)
                 (Reference.ramp 501 60) (Reference.ramp 501 60) in
     let o2 := @fit_transform Reference.backend (__post_init__ 10 (Some 7%Z))
                 5%Z (Reference.ramp 501 70) (Reference.ramp 501 60)
                 (Reference.ramp 501 60) (Reference.ramp 501 60) in
     returned o1 = returned o2
     /\ self_after o1 = self_after o2
     /\ frame o1 = frame o2
     /\ inputs_after o1 = inputs_after o2.
Proof.
  split; [exact reference_spec|].
  apply (@seeded_runs_agree Reference.backend reference_spec 10%Z 7%Z 0%Z 5%Z
           (Reference.ramp 501 70) (Reference.ramp 501 60)
           (Reference.ramp 501 60) (Reference.ramp 501 60)).
Defined.








(** C10 on a call that fails half-way: the bulk layer is too narrow. *)
Lemma inputs_untouched_witness :
  let self := @__post_init__ Reference.backend 3 None in
  configured self
  /\ (exists e,
        returned (fit_transform self 0%Z Reference.two_by_three
                    Reference.two_by_two Reference.two_by_three
                    Reference.two_by_three) = inl e)
  /\ inputs_after (fit_transform self 0%Z Reference.two_by_three
                     Reference.two_by_two Reference.two_by_three
                     Reference.two_by_three)
     = (Reference.two_by_three, Reference.two_by_two,
        Reference.two_by_three, Reference.two_by_three).
Proof.
  intros self.
  split; [apply post_init_configured|].
  split; [eexists; reflexivity|].
  apply (@inputs_untouched Reference.backend reference_spec self 0%Z
           Reference.two_by_three Reference.two_by_two
           Reference.two_by_three Reference.two_by_three).
  apply post_init_configured.
Defined.


(** ** The further properties at concrete inputs *)







(** X3 with [n_components = -1]. *)
Lemma negative_components_always_raise_witness :
  (-1 < 0)%Z
  /\ exists e,
       returned (@fit_transform Reference.backend (__post_init__ (-1) None)
                   0%Z Reference.two_by_two Reference.two_by_three
                   Reference.two_by_two Reference.two_by_three) = inl e.
Proof.
  assert (H : (-1 < 0)%Z) by lia.
  split; [exact H|].
  apply (@negative_components_always_raise Reference.backend reference_spec
           (-1)%Z None 0%Z Reference.two_by_two Reference.two_by_three
           Reference.two_by_two Reference.two_by_three H).
Defined.

(** X4 on a call whose bulk layer is refused. *)
Lemma errors_are_mismatch_or_reducer_witness :
  let self := @__post_init__ Reference.backend 3 None in
  let wide := Reference.zeros 4 5 in
  let narrow := Reference.zeros 4 2 in
  exists e,
    returned (fit_transform self 0%Z wide narrow wide wide) = inl e
    /\ ((e = ShapeMismatch /\ ~ same_rows wide narrow wide wide)
        \/ (same_rows wide narrow wide wide
            /\ exists g0 X g1 X1,
                 @pca_fit_transform Reference.backend (n_components self)
                   (random_state self) true g0 X = (g1, X1, inl e))).
Proof.
  intros self wide narrow. eexists. split; [reflexivity|].
  eapply (@errors_are_mismatch_or_reducer Reference.backend reference_spec
            self 0%Z wide narrow wide wide).
  - apply post_init_configured.
  - reflexivity.
Defined.

(** X5 with seed 7 on data for the randomised solver. *)
Lemma seeded_call_spares_generator_witness :
  let self := @__post_init__ Reference.backend 10 (Some 7%Z) in
  configured self
  /\ random_after (fit_transform self 5%Z (Reference.ramp 501 70)
                     (Reference.ramp 501 60) (Reference.ramp 501 60)
                     (Reference.ramp 501 60)) = 5%Z.
Proof.
  intros self. split; [apply post_init_configured|].
  apply (@seeded_call_spares_generator Reference.backend reference_spec
           self 7%Z 5%Z (Reference.ramp 501 70) (Reference.ramp 501 60)
           (Reference.ramp 501 60) (Reference.ramp 501 60)).
  - apply post_init_configured.
  - reflexivity.
Defined.




(** X9 with seed 7, on a call that returns. *)
Lemma seeded_call_again_changes_nothing_witness :
  let self := @__post_init__ Reference.backend 1 (Some 7%Z) in
  let o := fit_transform self 0%Z Reference.two_by_two
             Reference.two_by_three Reference.two_by_two
             Reference.two_by_three in
  let o' := fit_transform (self_after o) 5%Z Reference.two_by_two
              Reference.two_by_three Reference.two_by_two
              Reference.two_by_three in
  self_after o <> self
  /\ self_after o' = self_after o
  /\ returned o' = returned o
  /\ frame o' = frame o.
Proof.
  intros self o o'.
  split.
  { intros H.
    apply (f_equal (fun i : @MultiOmicsIntegrator Reference.backend =>
                      PCA.fitted (pca_joint i))) in H.
    vm_compute in H. discriminate H. }
  apply (@seeded_call_again_changes_nothing Reference.backend reference_spec
           self 7%Z 0%Z 5%Z Reference.two_by_two Reference.two_by_three
           Reference.two_by_two Reference.two_by_three).
  - apply post_init_configured.
  - reflexivity.
Defined.



(** X12 with seed 42. *)
Lemma seeded_demo_spares_generator_witness :
  BackendSpec Reference.backend
  /\ fst (@demo Reference.backend 50 (Some 42%Z) 0%Z 3%Z) = 3%Z.
Proof.
  split; [exact reference_spec|].
  apply (@seeded_demo_spares_generator Reference.backend reference_spec
           50%Z 42%Z 0%Z 3%Z).
Defined.

(** X13 on the reference backend. *)
Lemma main_prints_shape_witness :
  BackendSpec Reference.backend
  /\ snd (@main Reference.backend 0%Z 0%Z)
     = inr ("Integrated latent representation shape: (50, 10)"
            ++ String (ascii_of_nat 10) EmptyString)%string.
Proof.
  split; [exact reference_spec|].
  apply (@main_prints_shape Reference.backend reference_spec 0%Z 0%Z).
Defined.
